(** * permissions: attribute-based access control, and ranked roles

    A shallow embedding of [permissions/permissions.py] and
    [permissions/roles.py].

    The module is Python 2 code ([set_default_reasons] iterates with
    [dict.iteritems]), so the builtin [filter] builds a list and consumes
    its argument entirely before [all] inspects the first element, and
    [import enum] resolves to the enum34 backport of the standard
    enumeration module.

    Conventions of the embedding:
    - Python values are the inductive [pyval]; truthiness and [==] are the
      language's ([True == 1] holds, an empty container is falsy).
    - The actor object is the state of a small state-and-exception monad
      [M]: the functions of the source that take [actor_object] read and
      write its [_abac] attribute through the state.  The dictionary bound
      to [abac_dict] in the source is a reference to that attribute, so
      each use of [abac_dict] reads the attribute as it is at that moment.
    - The functions registered in [principals] are caller code.  They are
      functions from the attribute dictionary they receive to the
      dictionary they leave behind, together with a returned value or a
      raised exception.
    - The state also carries [calls], a log to which every invocation of a
      registered function is appended.  It plays the part of a call
      counter in a test double; no function of the source reads it. *)

From stdpp Require Import gmap strings list fin_maps.
From Stdlib Require Import ZArith.

Set Warnings "-register-all".
Set Default Proof Using "Type".

Local Open Scope Z_scope.

(** ** Python values *)

Module Py.

Inductive pyval :=
| VNone
| VBool (b : bool)
| VInt (n : Z)
| VStr (s : string)
| VList (xs : list pyval)
| VDict (d : gmap string pyval).

(** [bool(v)]. *)
Definition truthy (v : pyval) : bool :=
  match v with
  | VNone => false
  | VBool b => b
  | VInt n => negb (n =? 0)
  | VStr s => negb (String.eqb s "")
  | VList xs => match xs with [] => false | _ :: _ => true end
  | VDict d => negb (bool_decide (d = ∅))
  end.

(** [a == b].  [bool] is a subclass of [int]: [True == 1] and
    [False == 0]. *)
Fixpoint py_eq (a b : pyval) {struct a} : bool :=
  match a, b with
  | VNone, VNone => true
  | VBool x, VBool y => bool_decide (x = y)
  | VBool x, VInt y | VInt y, VBool x => Z.b2z x =? y
  | VInt x, VInt y => x =? y
  | VStr x, VStr y => String.eqb x y
  | VList xs, VList ys =>
      (fix go (xs ys : list pyval) {struct xs} : bool :=
         match xs, ys with
         | [], [] => true
         | x :: xs', y :: ys' => py_eq x y && go xs' ys'
         | _, _ => false
         end) xs ys
  | VDict d, VDict e =>
      bool_decide (dom d = dom e) &&
      map_fold (λ k v acc,
                acc && match e !! k with
                       | Some w => py_eq v w
                       | None => false
                       end) true d
  | _, _ => false
  end.

(** [v is not None]. *)
Definition is_not_None (v : pyval) : bool :=
  match v with VNone => false | _ => true end.

(** Exceptions.  [Failure] stands for whatever caller code raises. *)
Inductive exn :=
| PermissionDenied (arg : pyval)
| AttributeError
| TypeError
| ValueError (msg : string)
| Failure (what : string).

Inductive outcome (A : Type) :=
| Ret (a : A)
| Raise (e : exn).
Arguments Ret {A} a.
Arguments Raise {A} e.

(** [d.get(k, default)], [d.setdefault(k, default)]. *)
Definition dict_get (d : gmap string pyval) (k : string) (dflt : pyval) : pyval :=
  default dflt (d !! k).

Definition dict_setdefault (d : gmap string pyval) (k : string) (dflt : pyval)
  : pyval * gmap string pyval :=
  match d !! k with
  | Some v => (v, d)
  | None => (dflt, <[k := dflt]> d)
  end.

(** [all(xs)] on a list. *)
Definition py_all (xs : list pyval) : bool := forallb truthy xs.

End Py.

Export Py.

(** ** permissions.py *)

Module Permissions.

(** *** Registered functions

    An init function has the signature [init(abac_dict, actor_object,
    context)]; an assertion is called as [a(actor_object, resource_object,
    action, context, abac_dict=abac_dict)].  Both may write to the
    dictionary they are handed. *)

Definition init_code : Type :=
  gmap string pyval → pyval → pyval → outcome pyval * gmap string pyval.

Definition assert_code : Type :=
  pyval → pyval → string → pyval → gmap string pyval →
  outcome pyval * gmap string pyval.

Inductive pyfunc :=
| InitFn (name : string) (body : init_code)
| AssertFn (name : string) (body : assert_code).

Definition fn_name (f : pyfunc) : string :=
  match f with InitFn n _ | AssertFn n _ => n end.

(** [principals]: actor type ↦ ('_init' or action ↦ list of functions). *)
Abbreviation registry := (gmap string (gmap string (list pyfunc))).

(** [principals.get(actor_type, {}).get(key, [])]. *)
Definition registered (principals : registry) (actor_type key : string)
  : list pyfunc :=
  default [] (default ∅ (principals !! actor_type) !! key).

(** The second argument of [is_]: a value, or something callable. *)
Inductive value_expr :=
| Plain (v : pyval)
| Callable (f : pyval → outcome pyval).

Definition callable (e : value_expr) : bool :=
  match e with Plain _ => false | Callable _ => true end.

(** [value_expr(value)]; a plain value cannot be called. *)
Definition call_expr (e : value_expr) (value : pyval) : outcome pyval :=
  match e with Callable f => f value | Plain _ => Raise TypeError end.

(** [value == value_expr]; a data value never equals a function. *)
Definition eq_expr (value : pyval) (e : value_expr) : bool :=
  match e with Plain v => py_eq value v | Callable _ => false end.

(** *** The actor object and the monad *)

Record actor := Actor {
  self : pyval;                           (* what caller code sees of it *)
  _abac : option (gmap string pyval)      (* the attribute [_abac], if set *)
}.

Inductive event :=
| EvInit (name : string)
| EvAssert (name : string).

Record world := World {
  actor_object : actor;
  calls : list event
}.

Definition M (A : Type) : Type := world → outcome A * world.

#[global] Instance M_ret : MRet M := λ A a w, (Ret a, w).

#[global] Instance M_bind : MBind M := λ A B k m w,
  match m w with
  | (Ret a, w') => k a w'
  | (Raise e, w') => (Raise e, w')
  end.

Definition raise {A} (e : exn) : M A := λ w, (Raise e, w).

(** Lifts a computation that has no effect. *)
Definition lift {A} (o : outcome A) : M A := λ w, (o, w).

(** The dictionary [abac_dict] refers to, as it is now. *)
Definition entry (w : world) : gmap string pyval :=
  default ∅ (_abac (actor_object w)).

(** Rebinding what the reference points to, and logging a call. *)
Definition set_entry (w : world) (d : gmap string pyval) : world :=
  {| actor_object := {| self := self (actor_object w); _abac := Some d |};
     calls := calls w |}.

Definition log (w : world) (ev : event) : world :=
  {| actor_object := actor_object w; calls := calls w ++ [ev] |}.

(** [f(abac_dict, actor_object, context)].  A function with the signature
    of an assertion does not accept three positional arguments. *)
Definition call_init (context : pyval) (f : pyfunc) : M pyval := λ w,
  let '(r, d') :=
    match f with
    | InitFn _ body => body (entry w) (self (actor_object w)) context
    | AssertFn _ _ => (Raise TypeError, entry w)
    end in
  (r, log (set_entry w d') (EvInit (fn_name f))).

(** [a(actor_object, resource_object, action, context, abac_dict=abac_dict)]. *)
Definition call_assert (resource_object : pyval) (action : string)
    (context : pyval) (a : pyfunc) : M pyval := λ w,
  let '(r, d') :=
    match a with
    | AssertFn _ body =>
        body (self (actor_object w)) resource_object action context (entry w)
    | InitFn _ _ => (Raise TypeError, entry w)
    end in
  (r, log (set_entry w d') (EvAssert (fn_name a))).

(** Reading through the reference [abac_dict]. *)
Definition deref : M (gmap string pyval) := λ w, (Ret (entry w), w).

(** [abac_dict[key] = value]. *)
Definition setitem (key : string) (value : pyval) : M unit := λ w,
  (Ret (), set_entry w (<[key := value]> (entry w))).

(** [all(g(x) for x in xs)]: the generator is advanced only as far as
    [all] needs, which stops at the first falsy element. *)
Fixpoint all_genexp {A} (g : A → M pyval) (xs : list A) : M bool :=
  match xs with
  | [] => mret true
  | x :: xs' =>
      v ← g x;
      if truthy v then all_genexp g xs' else mret false
  end.

(** [filter(p, (g(x) for x in xs))] in Python 2: the result is a list, so
    the generator is run to its end. *)
Fixpoint filter_genexp {A} (p : pyval → bool) (g : A → M pyval) (xs : list A)
  : M (list pyval) :=
  match xs with
  | [] => mret []
  | x :: xs' =>
      v ← g x;
      vs ← filter_genexp p g xs';
      mret (if p v then v :: vs else vs)
  end.

(** *** The functions of the module *)

(** [setdefaultattr(obj, name, value)] at [name = '_abac']: [getattr]
    raises [AttributeError] exactly when the attribute is unset, and then
    [setattr] binds it. *)
Definition setdefaultattr_abac (value : gmap string pyval)
  : M (gmap string pyval) := λ w,
  match _abac (actor_object w) with
  | Some d => (Ret d, w)
  | None => (Ret value, set_entry w value)
  end.

Definition _get_abac_dict (actor_type : string) (context : pyval)
  : M (gmap string pyval) :=
  setdefaultattr_abac ∅.

Definition get_deny_reason (abac_dict : gmap string pyval) (action : string)
  : outcome pyval :=
  match dict_get abac_dict "_reasons" (VDict ∅) with
  | VDict reasons => Ret (dict_get reasons action (VList []))
  | _ => Raise AttributeError
  end.

Definition set_deny_reason (abac_dict : gmap string pyval) (action : string)
    (reason_message : pyval) : outcome pyval * gmap string pyval :=
  let '(by_action, abac_dict1) :=
    dict_setdefault abac_dict "_reasons" (VDict ∅) in
  match by_action with
  | VDict by_action =>
      let '(reasons, by_action1) :=
        dict_setdefault by_action action (VList []) in
      let abac_dict2 := <["_reasons" := VDict by_action1]> abac_dict1 in
      match reasons with
      | VList reasons =>
          (Ret VNone,
           <["_reasons" :=
               VDict (<[action := VList (reasons ++ [reason_message])]>
                        by_action1)]> abac_dict2)
      | _ => (Raise AttributeError, abac_dict2)
      end
  | _ => (Raise AttributeError, abac_dict1)
  end.

(** [isinstance(v, list)]. *)
Definition isinstance_list (v : pyval) : bool :=
  match v with VList _ => true | _ => false end.

(** The dict comprehension wraps every value that is not a list;
    [d.update(e)] lets the keys of [e] win. *)
Definition set_default_reasons (abac_dict : gmap string pyval)
    (reasons_dict : gmap string pyval) : outcome pyval * gmap string pyval :=
  let reasons_dict :=
    (λ v, if negb (isinstance_list v) then VList [v] else v) <$> reasons_dict in
  let '(stored, abac_dict1) :=
    dict_setdefault abac_dict "_reasons" (VDict reasons_dict) in
  match stored with
  | VDict stored =>
      (Ret VNone, <["_reasons" := VDict (reasons_dict ∪ stored)]> abac_dict1)
  | _ => (Raise AttributeError, abac_dict1)
  end.

Section Engine.

Variable principals : registry.

Definition _load_abac_dict (actor_type : string) (context : pyval)
  : M (gmap string pyval) :=
  abac_dict ← _get_abac_dict actor_type context;
  _ ← (if bool_decide (abac_dict = ∅)
          || negb (bool_decide (is_Some (abac_dict !! actor_type)))
       then
         let init := registered principals actor_type "_init" in
         results ← filter_genexp is_not_None (call_init context) init;
         let res := py_all results in
         setitem actor_type (VBool res)
       else mret ());
  deref.

Definition get (actor_type : string) (actor_attribute : string)
    (context : pyval) : M pyval :=
  abac_dict ← _load_abac_dict actor_type context;
  mret (dict_get abac_dict actor_attribute VNone).

Definition is_ (actor_type : string) (actor_attribute : string)
    (value_expr : value_expr) (context : pyval) : M pyval :=
  value ← get actor_type actor_attribute context;
  let match_ := VBool (eq_expr value value_expr) in
  match_ ← (if callable value_expr
            then lift (call_expr value_expr value)
            else mret match_);
  if negb (truthy match_) then
    abac_dict ← _get_abac_dict actor_type context;
    reasons ← lift (get_deny_reason abac_dict actor_attribute);
    raise (PermissionDenied reasons)
  else mret VNone.

Definition can (actor_type : string) (action : string)
    (resource_object : pyval) (context : pyval) : M pyval :=
  let assertions := registered principals actor_type action in
  abac_dict ← _get_abac_dict actor_type context;
  _ ← all_genexp (call_assert resource_object action context) assertions;
  mret VNone.

End Engine.

End Permissions.

(** ** roles.py *)

Module Roles.

(** A member of an enumeration: the class it belongs to, [_name_] and
    [_value_].  Classes are compared by identity; [cls] identifies one. *)
Record member := Member {
  cls : string;
  name : string;
  value : Z
}.

(** ['%r' % s] for a member name (an identifier: nothing to escape). *)
Definition repr (s : string) : string := "'" +:+ s +:+ "'".

(** ["aliases not allowed in Role:  %r --> %r" % (a, e)]. *)
Definition alias_message (a e : string) : string :=
  "aliases not allowed in Role:  " +:+ repr a +:+ " --> " +:+ repr e.

(** [cls(value)]: the member of the class with that value, looked up among
    the members defined so far. *)
Definition by_value (members : list member) (v : Z) : outcome member :=
  match List.find (λ e, value e =? v) members with
  | Some e => Ret e
  | None => Raise (ValueError "not a valid Role")
  end.

(** The base class's ordering methods.  enum34 defines [__ge__], [__gt__],
    [__le__] and [__lt__] on [Enum], each raising
    [TypeError("unorderable types: ...")]. *)
Definition Enum_unorderable (self other : member) : outcome bool :=
  Raise TypeError.

Module Role.

(** Runs while the class body is turned into members: iterating [cls]
    yields the members created before [self]. *)
Definition __init__ (members : list member) (self : member) : outcome unit :=
  if existsb (λ e, value self =? value e) members then
    let a := name self in
    match by_value members (value self) with
    | Ret e => Raise (ValueError (alias_message a (name e)))
    | Raise x => Raise x
    end
  else Ret ().

Definition __ge__ (self other : member) : outcome bool :=
  if String.eqb (cls self) (cls other)
  then Ret (value self >=? value other)
  else Enum_unorderable self other.

Definition __gt__ (self other : member) : outcome bool :=
  if String.eqb (cls self) (cls other)
  then Ret (value self >? value other)
  else Enum_unorderable self other.

Definition __le__ (self other : member) : outcome bool :=
  if String.eqb (cls self) (cls other)
  then Ret (value self <=? value other)
  else Enum_unorderable self other.

Definition __lt__ (self other : member) : outcome bool :=
  if String.eqb (cls self) (cls other)
  then Ret (value self <? value other)
  else Enum_unorderable self other.

End Role.

(** The enumeration metaclass creates the members in the order of the
    class body, calling [__init__] on each before adding it to the class. *)
Fixpoint create_members (c : string) (body : list (string * Z))
    (members : list member) : outcome (list member) :=
  match body with
  | [] => Ret members
  | (n, v) :: body' =>
      let m := {| cls := c; name := n; value := v |} in
      match Role.__init__ members m with
      | Ret _ => create_members c body' (members ++ [m])
      | Raise e => Raise e
      end
  end.

(** The member a line [n = v] of the body of class [c] becomes. *)
Definition member_of (c : string) (nv : string * Z) : member :=
  {| cls := c; name := nv.1; value := nv.2 |}.

(** [class c(Role): n1 = v1; n2 = v2; ...]. *)
Definition define (c : string) (body : list (string * Z))
  : outcome (list member) :=
  create_members c body [].

End Roles.

(** ** Runs of registered functions

    What it means for a list of registered functions to be run one after
    the other on a dictionary, stated on the functions themselves. *)

Module Runs.
Import Permissions.

(** The actor once [_get_abac_dict] has been called on it. *)
Definition acquire (w : world) : world :=
  match _abac (actor_object w) with
  | Some _ => w
  | None => set_entry w ∅
  end.

(** The world in which the dictionary is [d] and the functions [fs] have
    been called since [w]. *)
Definition after (w : world) (d : gmap string pyval) (evs : list event)
  : world :=
  {| actor_object := {| self := self (actor_object w); _abac := Some d |};
     calls := calls w ++ evs |}.

(** [inits_run me ctx fs d vs d']: each function of [fs], in order, is an
    init function that returns normally when applied to the dictionary
    its predecessor left; [vs] are the returned values and [d'] is the
    dictionary after the last one. *)
Inductive inits_run (me context : pyval)
  : list pyfunc → gmap string pyval → list pyval → gmap string pyval → Prop :=
| inits_run_nil d : inits_run me context [] d [] d
| inits_run_cons n body fs d v d1 vs d2 :
    body d me context = (Ret v, d1) →
    inits_run me context fs d1 vs d2 →
    inits_run me context (InitFn n body :: fs) d (v :: vs) d2.

(** [passes me res action ctx fs d d']: each assertion of [fs], in order,
    returns a truthy value on the dictionary its predecessor left. *)
Inductive passes (me resource_object : pyval) (action : string)
    (context : pyval)
  : list pyfunc → gmap string pyval → gmap string pyval → Prop :=
| passes_nil d : passes me resource_object action context [] d d
| passes_cons n body fs d v d1 d2 :
    body me resource_object action context d = (Ret v, d1) →
    truthy v = true →
    passes me resource_object action context fs d1 d2 →
    passes me resource_object action context (AssertFn n body :: fs) d d2.

(** What [is_] checks, as the docstring puts it: equality with
    [value_expr], or the boolean it returns when it is callable. *)
Definition matches (value : pyval) (e : value_expr) : outcome bool :=
  match e with
  | Plain v => Ret (py_eq value v)
  | Callable f =>
      match f value with
      | Ret r => Ret (truthy r)
      | Raise x => Raise x
      end
  end.

(** Recording several reasons for one action, one call each. *)
Definition record_all (abac_dict : gmap string pyval) (action : string)
    (messages : list pyval) : gmap string pyval :=
  foldl (λ d m, (set_deny_reason d action m).2) abac_dict messages.

(** No reason has been recorded for [action] in [abac_dict]. *)
Definition unrecorded (abac_dict : gmap string pyval) (action : string)
  : Prop :=
  abac_dict !! "_reasons" = None ∨
  ∃ by_action, abac_dict !! "_reasons" = Some (VDict by_action) ∧
               by_action !! action = None.

(** [v] is a [dict]. *)
Definition is_dict (v : pyval) : bool :=
  match v with VDict _ => true | _ => false end.

(** What [set_default_reasons] stores for a value of its mapping. *)
Definition as_reason_list (v : pyval) : pyval :=
  match v with VList _ => v | _ => VList [v] end.

Definition is_init_event (ev : event) : bool :=
  match ev with EvInit _ => true | EvAssert _ => false end.

End Runs.

(** ** Fixtures: a registry, an actor, two role sets *)

Module Fixtures.
Import Permissions Roles.

(** Writes the attribute [age] and returns nothing. *)
Definition load_age : pyfunc :=
  InitFn "load_age" (λ d _ _, (Ret VNone, <["age" := VInt 17]> d)).

(** Writes the attribute [staff] and reports failure. *)
Definition load_staff : pyfunc :=
  InitFn "load_staff" (λ d _ _, (Ret (VBool false), <["staff" := VBool true]> d)).

(** Reads [age] straight from the dictionary it is handed. *)
Definition adult : pyfunc :=
  AssertFn "adult" (λ _ _ _ _ d,
    (Ret (VBool match d !! "age" with
                | Some (VInt n) => 18 <=? n
                | _ => false
                end), d)).

Definition always : pyfunc :=
  AssertFn "always" (λ _ _ _ _ d, (Ret (VBool true), d)).

Definition never_body : assert_code :=
  λ _ _ _ _ d, (Ret (VBool false), <["seen" := VInt 1]> d).

Definition never : pyfunc := AssertFn "never" never_body.

Definition explode : pyfunc :=
  AssertFn "explode" (λ _ _ _ _ d, (Raise (Failure "explode"), d)).

Definition principals : registry :=
  {[ "user" := {[ "_init" := [load_age; load_staff];
                  "vote" := [adult];
                  "read" := [always; never; explode; always];
                  "drop" := [never; explode; always] ]} ]}.

(** An actor that has never been seen by the module. *)
Definition bob : world :=
  {| actor_object := {| self := VStr "bob"; _abac := None |}; calls := [] |}.

(** An actor whose dictionary was filled in before. *)
Definition carol : world :=
  {| actor_object :=
       {| self := VStr "carol";
          _abac := Some {[ "user" := VBool true; "age" := VInt 18 ]} |};
     calls := [] |}.

(** An actor on which an attribute named like the actor type was written. *)
Definition dave : world :=
  {| actor_object :=
       {| self := VStr "dave"; _abac := Some {[ "user" := VStr "dave" ]} |};
     calls := [] |}.

(** An init function that fails after a partial write. *)
Definition load_fail_body : init_code :=
  λ d _ _, (Raise (Failure "backend down"), <["partial" := VInt 1]> d).

Definition load_fail : pyfunc := InitFn "load_fail" load_fail_body.

Definition explode_body : assert_code :=
  λ _ _ _ _ d, (Raise (Failure "explode"), d).

(** A registry in which initialisation of ["svc"] fails half way, and a
    chain of ["user"] raises after its first assertion. *)
Definition failing : registry :=
  {[ "svc" := {[ "_init" := [load_age; load_fail; load_staff] ]};
     "user" := {[ "open" := [always; AssertFn "explode" explode_body; never];
                  "pass" := [always; adult] ]} ]}.

(** An actor on which something that is not a dictionary was stored under
    the key ['_reasons']. *)
Definition erin : world :=
  {| actor_object :=
       {| self := VStr "erin";
          _abac := Some {[ "user" := VBool true; "age" := VInt 17;
                           "_reasons" := VStr "n/a" ]} |};
     calls := [] |}.

(** An init function that records why the attribute [age] may fail. *)
Definition explain_body : init_code :=
  λ d _ _,
    let '(r, d') := set_deny_reason d "age" (VStr "minors may not vote") in
    (r, d').

(** A registry whose init functions load [age] and record a reason. *)
Definition voters : registry :=
  {[ "voter" := {[ "_init" := [load_age; InitFn "explain" explain_body] ]} ]}.

Definition crash : value_expr :=
  Callable (λ _, Raise (Failure "crash")).

Definition at_least_18 : value_expr :=
  Callable (λ v, Ret (VBool match v with VInt n => 18 <=? n | _ => false end)).

Definition ROOT : member := {| cls := "MyRoles"; name := "ROOT"; value := 1 |}.
Definition ADMIN : member := {| cls := "MyRoles"; name := "ADMIN"; value := 5 |}.
Definition USER : member := {| cls := "MyRoles"; name := "USER"; value := 10 |}.
Definition GUEST : member := {| cls := "OtherRoles"; name := "GUEST"; value := 7 |}.

End Fixtures.

(** ** Properties of permissions.py *)

Module PermissionsSpec.
Import Permissions Runs.

Ltac run_monad :=
  unfold mbind, M_bind, mret, M_ret, lift, raise, deref, setitem in *.

(** *** The state *)

Lemma acquire_after w : acquire w = after w (entry w) [].
Proof.
  unfold acquire, after, entry, set_entry.
  rewrite app_nil_r. destruct w as [[me [d|]] evs]; done.
Qed.

Lemma entry_after w d evs : entry (after w d evs) = d.
Proof. done. Qed.

Lemma after_after w d evs d' evs' :
  after (after w d evs) d' evs' = after w d' (evs ++ evs').
Proof. unfold after; simpl. by rewrite app_assoc. Qed.

Lemma entry_acquire w : entry (acquire w) = entry w.
Proof. by rewrite acquire_after. Qed.

Lemma calls_acquire w : calls (acquire w) = calls w.
Proof. rewrite acquire_after; simpl. apply app_nil_r. Qed.

Lemma acquire_present w d :
  _abac (actor_object w) = Some d → acquire w = w.
Proof. unfold acquire. by intros ->. Qed.

Lemma present_entry w k :
  is_Some (entry w !! k) → _abac (actor_object w) = Some (entry w).
Proof.
  unfold entry. destruct (_abac (actor_object w)); [done|].
  simpl. rewrite lookup_empty. by intros [? ?].
Qed.

Lemma _get_abac_dict_run actor_type context w :
  _get_abac_dict actor_type context w = (Ret (entry w), acquire w).
Proof.
  unfold _get_abac_dict, setdefaultattr_abac, acquire, entry.
  by destruct (_abac (actor_object w)).
Qed.

(** *** Calling one registered function *)

Lemma call_assert_after res action context n body w d evs :
  call_assert res action context (AssertFn n body) (after w d evs) =
  let '(r, d') := body (self (actor_object w)) res action context d in
  (r, after w d' (evs ++ [EvAssert n])).
Proof.
  unfold call_assert; simpl. rewrite entry_after.
  destruct (body _ _ _ _ _) as [r d']. unfold log, set_entry, after; simpl.
  by rewrite app_assoc.
Qed.

Lemma call_init_after context n body w d evs :
  call_init context (InitFn n body) (after w d evs) =
  let '(r, d') := body d (self (actor_object w)) context in
  (r, after w d' (evs ++ [EvInit n])).
Proof.
  unfold call_init; simpl. rewrite entry_after.
  destruct (body _ _ _) as [r d']. unfold log, set_entry, after; simpl.
  by rewrite app_assoc.
Qed.

Lemma call_assert_calls res action context a w :
  calls (call_assert res action context a w).2 =
  calls w ++ [EvAssert (fn_name a)].
Proof.
  unfold call_assert. destruct a as [n body|n body]; simpl.
  - done.
  - by destruct (body _ _ _ _ _).
Qed.

(** *** Chains of assertions *)

Lemma all_genexp_passes me res action context fs d d' :
  passes me res action context fs d d' →
  ∀ w evs, self (actor_object w) = me →
    all_genexp (call_assert res action context) fs (after w d evs) =
    (Ret true, after w d' (evs ++ map (EvAssert ∘ fn_name) fs)).
Proof.
  induction 1 as [d|n body fs d v d1 d2 Hbody Hv _ IH]; intros w evs Hme.
  - simpl. by rewrite app_nil_r.
  - simpl. run_monad. rewrite call_assert_after, Hme, Hbody, Hv.
    rewrite (IH w _ Hme). by rewrite <- app_assoc.
Qed.

Lemma all_genexp_app_falsy {A} (g : A → M pyval) pre f rest w w1 v w2 :
  all_genexp g pre w = (Ret true, w1) →
  g f w1 = (Ret v, w2) →
  truthy v = false →
  all_genexp g (pre ++ f :: rest) w = (Ret false, w2).
Proof.
  revert w. induction pre as [|x pre IH]; intros w Hpre Hf Hv; simpl in *.
  - run_monad. injection Hpre as <-. by rewrite Hf, Hv.
  - run_monad. destruct (g x w) as [[u|e] wx]; [|done].
    destruct (truthy u); [|done]. by apply IH.
Qed.

(** The calls made by a chain are a prefix of the chain, in its order,
    and no other call is made. *)
Lemma all_genexp_calls res action context fs w :
  ∃ k, calls (all_genexp (call_assert res action context) fs w).2 =
       calls w ++ map (EvAssert ∘ fn_name) (take k fs).
Proof.
  revert w. induction fs as [|a fs IH]; intros w.
  - exists 0%nat. simpl. by rewrite app_nil_r.
  - simpl. run_monad.
    pose proof (call_assert_calls res action context a w) as Hc.
    destruct (call_assert res action context a w) as [[u|e] wa]; simpl in Hc.
    + destruct (truthy u).
      * destruct (IH wa) as [k Hk]. exists (S k).
        rewrite Hk, Hc. simpl. by rewrite <- app_assoc.
      * exists 1%nat. simpl. by destruct fs.
    + exists 1%nat. simpl. by destruct fs.
Qed.

(** *** [can] *)

Lemma can_run principals actor_type action res context w :
  can principals actor_type action res context w =
  (_ ← all_genexp (call_assert res action context)
         (registered principals actor_type action);
   mret VNone) (acquire w).
Proof.
  unfold can. run_monad. by rewrite _get_abac_dict_run.
Qed.

(** C1, as amended.  When no assertion is registered for the actor type
    and the action (unknown actor type, unknown action, or an empty list),
    [can] returns [None] and does not raise; it has acquired the actor's
    dictionary, creating an empty one if the actor had none, and made no
    call. *)
Theorem can_without_assertions principals actor_type action res context w :
  registered principals actor_type action = [] →
  can principals actor_type action res context w = (Ret VNone, acquire w).
Proof.
  intros Hnone. rewrite can_run, Hnone. reflexivity.
Qed.

(** C3.  The assertions registered for (actor type, action) are called in
    registration order, and the first one that returns a falsy value is
    the last one called: if the assertions of [pre] pass one after the
    other and the next one returns a falsy [v], then [can] returns in the
    state that assertion left, the calls made are those of [pre] followed
    by that one, and nothing of [rest] is run. *)
Theorem can_short_circuits principals actor_type action res context w
    pre n body rest d1 v d2 :
  registered principals actor_type action = pre ++ AssertFn n body :: rest →
  passes (self (actor_object w)) res action context pre (entry w) d1 →
  body (self (actor_object w)) res action context d1 = (Ret v, d2) →
  truthy v = false →
  can principals actor_type action res context w =
  (Ret VNone, after w d2 (map (EvAssert ∘ fn_name) pre ++ [EvAssert n])).
Proof.
  intros Hreg Hpre Hbody Hv. rewrite can_run, Hreg, acquire_after.
  run_monad.
  erewrite all_genexp_app_falsy; [reflexivity | | | exact Hv].
  - by apply (all_genexp_passes _ _ _ _ _ _ _ Hpre).
  - rewrite call_assert_after, Hbody. reflexivity.
Qed.

(** C4, as amended.  [can] acquires the actor's dictionary, creating an
    empty one if the actor had none, and does not initialise it: the
    assertions are evaluated on the dictionary as it was, the only calls
    made are calls of assertions, a prefix of the registered chain in its
    order, and no init function is run. *)
Theorem can_acquires_without_initializing principals actor_type action res
    context w :
  entry (acquire w) = entry w ∧
  calls (acquire w) = calls w ∧
  can principals actor_type action res context w =
    (_ ← all_genexp (call_assert res action context)
           (registered principals actor_type action);
     mret VNone) (acquire w) ∧
  ∃ k, calls (can principals actor_type action res context w).2 =
       calls w ++
       map (EvAssert ∘ fn_name)
           (take k (registered principals actor_type action)).
Proof.
  split; [apply entry_acquire|]. split; [apply calls_acquire|].
  split; [apply can_run|].
  rewrite can_run. run_monad.
  destruct (all_genexp_calls res action context
              (registered principals actor_type action) (acquire w))
    as [k Hk].
  exists k. rewrite calls_acquire in Hk.
  by destruct (all_genexp _ _ _) as [[b|e] w'].
Qed.

Lemma can_without_assertions_witness :
  registered Fixtures.principals "unknown_type" "anything" = [] ∧
  can Fixtures.principals "unknown_type" "anything" VNone VNone Fixtures.bob =
  (Ret VNone, acquire Fixtures.bob).
Proof.
  split; [vm_compute; reflexivity|].
  apply (can_without_assertions Fixtures.principals "unknown_type" "anything").
  vm_compute; reflexivity.
Defined.

(** C1, as stated, fails: with nothing registered for the actor type,
    [can("unknown_type", obj, "anything")] returns [None], which is not
    [True]. *)
Lemma can_unknown_type_returns_None :
  (can Fixtures.principals "unknown_type" "anything" VNone VNone
       Fixtures.bob).1 = Ret VNone ∧
  (can Fixtures.principals "unknown_type" "anything" VNone VNone
       Fixtures.bob).1 ≠ Ret (VBool true).
Proof.
  split; [vm_compute; reflexivity|]. vm_compute. discriminate.
Qed.

Lemma can_short_circuits_witness :
  can Fixtures.principals "user" "read" VNone VNone Fixtures.bob =
  (Ret VNone,
   after Fixtures.bob {[ "seen" := VInt 1 ]}
         [EvAssert "always"; EvAssert "never"]).
Proof.
  apply (can_short_circuits Fixtures.principals "user" "read" VNone VNone
           Fixtures.bob [Fixtures.always] "never" Fixtures.never_body
           [Fixtures.explode; Fixtures.always] ∅ (VBool false)).
  - vm_compute; reflexivity.
  - eapply passes_cons; [reflexivity | reflexivity | apply passes_nil].
  - reflexivity.
  - reflexivity.
Defined.

(** The chain [f1, f2, f3] of the specification, [f1] falsy: [f2] (which
    would raise) and [f3] are not called. *)
Example can_drop_stops_at_first :
  can Fixtures.principals "user" "drop" VNone VNone Fixtures.bob =
  (Ret VNone, after Fixtures.bob {[ "seen" := VInt 1 ]} [EvAssert "never"]).
Proof. vm_compute; reflexivity. Qed.

(** C4, as stated, fails: init functions are registered for ["user"] and
    the actor has no marker, yet [can] calls the assertion [adult] on an
    empty dictionary, calls no init function and sets no marker. *)
Lemma can_does_not_initialize :
  registered Fixtures.principals "user" "_init" =
    [Fixtures.load_age; Fixtures.load_staff] ∧
  entry Fixtures.bob !! "user" = None ∧
  can Fixtures.principals "user" "vote" VNone VNone Fixtures.bob =
    (Ret VNone, after Fixtures.bob ∅ [EvAssert "adult"]).
Proof.
  split; [vm_compute; reflexivity|]. split; vm_compute; reflexivity.
Qed.

(** *** [_load_abac_dict] and [get] *)

Lemma filter_genexp_inits me context fs d vs d' :
  inits_run me context fs d vs d' →
  ∀ w evs, self (actor_object w) = me →
    filter_genexp is_not_None (call_init context) fs (after w d evs) =
    (Ret (List.filter is_not_None vs),
     after w d' (evs ++ map (EvInit ∘ fn_name) fs)).
Proof.
  induction 1 as [d|n body fs d v d1 vs d2 Hbody _ IH]; intros w evs Hme.
  - simpl. by rewrite app_nil_r.
  - simpl. run_monad. rewrite call_init_after, Hme, Hbody.
    rewrite (IH w _ Hme), <- app_assoc. reflexivity.
Qed.

Lemma marker_test_present (d : gmap string pyval) k :
  is_Some (d !! k) →
  bool_decide (d = ∅) || negb (bool_decide (is_Some (d !! k))) = false.
Proof.
  intros Hk. rewrite (bool_decide_eq_true_2 _ Hk). simpl.
  rewrite orb_false_r. apply bool_decide_eq_false_2.
  intros ->. rewrite lookup_empty in Hk. by destruct Hk.
Qed.

Lemma marker_test_absent (d : gmap string pyval) k :
  d !! k = None →
  bool_decide (d = ∅) || negb (bool_decide (is_Some (d !! k))) = true.
Proof.
  intros Hk. destruct (bool_decide (d = ∅)); [done|]. simpl.
  rewrite bool_decide_eq_false_2; [done|]. rewrite Hk. by intros [? ?].
Qed.

Lemma load_present principals actor_type context w :
  is_Some (entry w !! actor_type) →
  _load_abac_dict principals actor_type context w = (Ret (entry w), w).
Proof.
  intros Hk. unfold _load_abac_dict. run_monad.
  rewrite _get_abac_dict_run, (marker_test_present _ _ Hk).
  by rewrite (acquire_present _ _ (present_entry _ _ Hk)).
Qed.

Lemma load_absent principals actor_type context w vs d' :
  entry w !! actor_type = None →
  inits_run (self (actor_object w)) context
            (registered principals actor_type "_init") (entry w) vs d' →
  _load_abac_dict principals actor_type context w =
  (Ret (<[actor_type := VBool (py_all (List.filter is_not_None vs))]> d'),
   after w (<[actor_type := VBool (py_all (List.filter is_not_None vs))]> d')
         (map (EvInit ∘ fn_name) (registered principals actor_type "_init"))).
Proof.
  intros Hk Hrun. unfold _load_abac_dict. run_monad.
  rewrite _get_abac_dict_run, (marker_test_absent _ _ Hk), acquire_after.
  by rewrite (filter_genexp_inits _ _ _ _ _ _ Hrun).
Qed.

(** However it went, a load that returns leaves the marker behind, and
    returns the dictionary as it then is. *)
Lemma load_leaves_marker principals actor_type context w d w' :
  _load_abac_dict principals actor_type context w = (Ret d, w') →
  d = entry w' ∧ is_Some (entry w' !! actor_type).
Proof.
  unfold _load_abac_dict. run_monad. rewrite _get_abac_dict_run.
  destruct (bool_decide (entry w = ∅)
            || negb (bool_decide (is_Some (entry w !! actor_type)))) eqn:Ht.
  - destruct (filter_genexp _ _ _ _) as [[rs|e] w1]; [|done].
    intros [= <- <-]. split; [done|].
    unfold set_entry, entry at 1; simpl. rewrite lookup_insert_eq. eauto.
  - intros [= <- <-]. split; [by rewrite entry_acquire|].
    rewrite entry_acquire.
    apply orb_false_iff in Ht as [_ Ht]. apply negb_false_iff in Ht.
    by apply bool_decide_eq_true_1 in Ht.
Qed.

Lemma get_present principals actor_type attr context w :
  is_Some (entry w !! actor_type) →
  get principals actor_type attr context w =
  (Ret (dict_get (entry w) attr VNone), w).
Proof.
  intros Hk. unfold get. run_monad. by rewrite (load_present _ _ _ _ Hk).
Qed.

Lemma get_leaves_marker principals actor_type attr context w v w' :
  get principals actor_type attr context w = (Ret v, w') →
  v = dict_get (entry w') attr VNone ∧ is_Some (entry w' !! actor_type).
Proof.
  unfold get. run_monad.
  destruct (_load_abac_dict _ _ _ _) as [[d|e] w1] eqn:Hl; [|done].
  intros [= <- <-]. apply load_leaves_marker in Hl as [-> ?]. done.
Qed.

Lemma filter_init_asserts (fs : list pyfunc) :
  List.filter is_init_event (map (EvAssert ∘ fn_name) fs) = [].
Proof. induction fs; simpl; done. Qed.

Lemma is__world_present principals actor_type attr e context w :
  is_Some (entry w !! actor_type) →
  (is_ principals actor_type attr e context w).2 = w.
Proof.
  intros Hk. unfold is_. run_monad. rewrite (get_present _ _ _ _ _ Hk).
  pose proof (acquire_present _ _ (present_entry _ _ Hk)) as Hw.
  destruct e as [x|f]; simpl.
  - destruct (negb (py_eq _ _)); [|done].
    rewrite _get_abac_dict_run, Hw. by destruct (get_deny_reason _ _).
  - destruct (f _) as [r|x]; [|done].
    destruct (negb (truthy r)); [|done].
    rewrite _get_abac_dict_run, Hw. by destruct (get_deny_reason _ _).
Qed.

Lemma py_all_filter_None vs :
  Forall (λ v, v = VNone) vs → py_all (List.filter is_not_None vs) = true.
Proof. induction 1 as [|v vs -> _ IH]; simpl; done. Qed.

(** Two reads in a row: whatever the first one had to do, the second one
    finds the marker, calls nothing and changes nothing. *)
Lemma get_then_get principals actor_type attr1 attr2 context w v1 w1 :
  get principals actor_type attr1 context w = (Ret v1, w1) →
  get principals actor_type attr2 context w1 =
  (Ret (dict_get (entry w1) attr2 VNone), w1).
Proof.
  intros Hget. apply get_leaves_marker in Hget as [_ Hk].
  by apply get_present.
Qed.

(** C2.  Once the marker for [actor_type] is in the actor's dictionary,
    no init function is executed again and the stored attributes are
    reused: [get] returns what is stored and leaves the actor and the
    call log as they are, so does [is_] whatever it answers, and the calls
    made by [can] are not calls of init functions. *)
Theorem initialization_runs_once principals actor_type context w :
  is_Some (entry w !! actor_type) →
  (∀ attr, get principals actor_type attr context w =
           (Ret (dict_get (entry w) attr VNone), w)) ∧
  (∀ attr e, (is_ principals actor_type attr e context w).2 = w) ∧
  (∀ action res,
     List.filter is_init_event
       (calls (can principals actor_type action res context w).2) =
     List.filter is_init_event (calls w)).
Proof.
  intros Hk. split; [|split].
  - intros attr. by apply get_present.
  - intros attr e. by apply is__world_present.
  - intros action res. rewrite can_run. run_monad.
    destruct (all_genexp_calls res action context
                (registered principals actor_type action) (acquire w))
      as [k Hcalls].
    rewrite calls_acquire in Hcalls.
    destruct (all_genexp _ _ _) as [[b|x] w']; simpl in *;
      by rewrite Hcalls, List.filter_app, filter_init_asserts, app_nil_r.
Qed.

Lemma initialization_runs_once_witness :
  is_Some (entry Fixtures.carol !! "user") ∧
  get Fixtures.principals "user" "age" VNone Fixtures.carol =
    (Ret (VInt 18), Fixtures.carol) ∧
  (is_ Fixtures.principals "user" "age" Fixtures.at_least_18 VNone
       Fixtures.carol).2 = Fixtures.carol ∧
  List.filter is_init_event
    (calls (can Fixtures.principals "user" "vote" VNone VNone
                Fixtures.carol).2) = [].
Proof.
  assert (Hk : is_Some (entry Fixtures.carol !! "user")).
  { exists (VBool true). vm_compute; reflexivity. }
  destruct (initialization_runs_once Fixtures.principals "user" VNone
              Fixtures.carol Hk) as (Hget & His & Hcan).
  split; [exact Hk|]. split; [exact (Hget "age")|].
  split; [exact (His "age" Fixtures.at_least_18)|].
  exact (Hcan "vote" VNone).
Defined.

(** The first property of the specification's list: two [get]s for
    different attributes on a fresh actor run each init function once. *)
Example get_twice_on_fresh_actor :
  (x ← get Fixtures.principals "user" "age" VNone;
   y ← get Fixtures.principals "user" "staff" VNone;
   mret (x, y)) Fixtures.bob =
  (Ret (VInt 17, VBool true),
   after Fixtures.bob
         {[ "user" := VBool false; "age" := VInt 17; "staff" := VBool true ]}
         [EvInit "load_age"; EvInit "load_staff"]).
Proof. vm_compute; reflexivity. Qed.

(** C5.  When the marker for [actor_type] is absent, every registered
    init function is called, in registration order, each on the
    dictionary its predecessor left, with the actor object and the
    context; [None] results are dropped and the marker is set to [all] of
    the remaining results, which is [True] when no function is registered
    or all return [None]. *)
Theorem load_runs_every_init principals actor_type context w vs d' :
  entry w !! actor_type = None →
  inits_run (self (actor_object w)) context
            (registered principals actor_type "_init") (entry w) vs d' →
  let res := py_all (List.filter is_not_None vs) in
  _load_abac_dict principals actor_type context w =
    (Ret (<[actor_type := VBool res]> d'),
     after w (<[actor_type := VBool res]> d')
           (map (EvInit ∘ fn_name)
                (registered principals actor_type "_init"))) ∧
  (Forall (λ v, v = VNone) vs → res = true).
Proof.
  intros Hk Hrun res. split.
  - by apply load_absent.
  - apply py_all_filter_None.
Qed.

Lemma load_runs_every_init_witness :
  _load_abac_dict Fixtures.principals "user" VNone Fixtures.bob =
  (Ret {[ "user" := VBool false; "age" := VInt 17; "staff" := VBool true ]},
   after Fixtures.bob
         {[ "user" := VBool false; "age" := VInt 17; "staff" := VBool true ]}
         [EvInit "load_age"; EvInit "load_staff"]).
Proof.
  refine (proj1 (load_runs_every_init Fixtures.principals "user" VNone
                   Fixtures.bob [VNone; VBool false]
                   {[ "age" := VInt 17; "staff" := VBool true ]} _ _)).
  - vm_compute; reflexivity.
  - change (registered Fixtures.principals "user" "_init")
      with [Fixtures.load_age; Fixtures.load_staff].
    eapply inits_run_cons; [reflexivity|].
    eapply inits_run_cons; [vm_compute; reflexivity|].
    apply inits_run_nil.
Defined.

Lemma get_absent principals actor_type attr context w vs d' :
  entry w !! actor_type = None →
  inits_run (self (actor_object w)) context
            (registered principals actor_type "_init") (entry w) vs d' →
  get principals actor_type attr context w =
  (Ret (dict_get
          (<[actor_type := VBool (py_all (List.filter is_not_None vs))]> d')
          attr VNone),
   after w (<[actor_type := VBool (py_all (List.filter is_not_None vs))]> d')
         (map (EvInit ∘ fn_name) (registered principals actor_type "_init"))).
Proof.
  intros Hk Hrun. unfold get. run_monad.
  by rewrite (load_absent _ _ _ _ _ _ Hk Hrun).
Qed.

(** C10.  The marker lives among the attributes, under the key
    [actor_type].  If the dictionary holds anything under that key, an
    attribute written earlier included, initialisation counts as done: no
    init function is called, nothing changes, and reading the attribute
    [actor_type] returns what is stored.  If it holds nothing there, the
    init functions run and reading the attribute [actor_type] returns the
    boolean just stored as marker, not [None]. *)
Theorem marker_is_an_attribute principals actor_type context w :
  (∀ v, entry w !! actor_type = Some v →
     _load_abac_dict principals actor_type context w = (Ret (entry w), w) ∧
     get principals actor_type actor_type context w = (Ret v, w)) ∧
  (∀ vs d',
     entry w !! actor_type = None →
     inits_run (self (actor_object w)) context
               (registered principals actor_type "_init") (entry w) vs d' →
     let res := py_all (List.filter is_not_None vs) in
     get principals actor_type actor_type context w =
     (Ret (VBool res),
      after w (<[actor_type := VBool res]> d')
            (map (EvInit ∘ fn_name)
                 (registered principals actor_type "_init")))).
Proof.
  split.
  - intros v Hv. assert (Hk : is_Some (entry w !! actor_type)) by eauto.
    split; [by apply load_present|].
    rewrite (get_present _ _ _ _ _ Hk). unfold dict_get. by rewrite Hv.
  - intros vs d' Hk Hrun res.
    rewrite (get_absent _ _ _ _ _ _ _ Hk Hrun).
    unfold dict_get. by rewrite lookup_insert_eq.
Qed.

Lemma marker_is_an_attribute_witness :
  (_load_abac_dict Fixtures.principals "user" VNone Fixtures.dave =
     (Ret (entry Fixtures.dave), Fixtures.dave) ∧
   get Fixtures.principals "user" "user" VNone Fixtures.dave =
     (Ret (VStr "dave"), Fixtures.dave)) ∧
  get Fixtures.principals "user" "user" VNone Fixtures.bob =
    (Ret (VBool false),
     after Fixtures.bob
       {[ "user" := VBool false; "age" := VInt 17; "staff" := VBool true ]}
       [EvInit "load_age"; EvInit "load_staff"]).
Proof.
  split.
  - apply (proj1 (marker_is_an_attribute Fixtures.principals "user" VNone
                    Fixtures.dave) (VStr "dave")).
    vm_compute; reflexivity.
  - refine (proj2 (marker_is_an_attribute Fixtures.principals "user" VNone
                     Fixtures.bob) [VNone; VBool false]
                  {[ "age" := VInt 17; "staff" := VBool true ]} _ _).
    + vm_compute; reflexivity.
    + change (registered Fixtures.principals "user" "_init")
        with [Fixtures.load_age; Fixtures.load_staff].
      eapply inits_run_cons; [reflexivity|].
      eapply inits_run_cons; [vm_compute; reflexivity|].
      apply inits_run_nil.
Defined.

(** *** [is_] *)

Lemma get_deny_reason_unrecorded abac_dict action :
  unrecorded abac_dict action →
  get_deny_reason abac_dict action = Ret (VList []).
Proof.
  unfold get_deny_reason, dict_get.
  intros [-> | (by_action & -> & Hnone)]; simpl.
  - by rewrite lookup_empty.
  - by rewrite Hnone.
Qed.


(** *** Deny reasons *)

Ltac map_lookups :=
  repeat first
    [ rewrite lookup_insert_eq
    | rewrite lookup_insert_ne by done
    | rewrite lookup_empty
    | progress simpl ].

Lemma set_deny_reason_appends abac_dict action old m :
  get_deny_reason abac_dict action = Ret (VList old) →
  ∃ d', set_deny_reason abac_dict action m = (Ret VNone, d') ∧
        get_deny_reason d' action = Ret (VList (old ++ [m])) ∧
        (∀ other, other ≠ action →
           get_deny_reason d' other = get_deny_reason abac_dict other) ∧
        (∀ k, k ≠ "_reasons" → d' !! k = abac_dict !! k).
Proof.
  unfold get_deny_reason, set_deny_reason, dict_setdefault, dict_get.
  destruct (abac_dict !! "_reasons") as [[| | | | |by_action]|] eqn:Hr;
    simpl; try done.
  - destruct (by_action !! action) as [[| | | |xs|]|] eqn:Ha;
      simpl; try done; intros [= <-]; eexists; (split; [reflexivity|]);
      (split; [|split]); intros; by map_lookups.
  - rewrite lookup_empty; simpl. intros [= <-].
    eexists; (split; [reflexivity|]).
    (split; [|split]); intros; by map_lookups.
Qed.

Lemma record_all_reads abac_dict action old messages :
  get_deny_reason abac_dict action = Ret (VList old) →
  get_deny_reason (record_all abac_dict action messages) action =
  Ret (VList (old ++ messages)).
Proof.
  revert abac_dict old.
  induction messages as [|m messages IH]; intros abac_dict old Hold; simpl.
  - by rewrite app_nil_r.
  - destruct (set_deny_reason_appends _ _ _ m Hold) as (d' & -> & Hd' & _).
    simpl. rewrite (IH _ _ Hd'). by rewrite <- app_assoc.
Qed.

(** C7.  For an action with no recorded reason [get_deny_reason] returns
    the empty list.  Whenever it returns a list [old] for an action, a
    call of [set_deny_reason] for that action returns normally, after it
    [get_deny_reason] returns [old] with the message appended, the lists
    of the other actions and the other keys of the dictionary are as
    before; and after recording [messages] one call each it returns [old]
    followed by [messages], in the order recorded. *)
Theorem deny_reason_round_trip abac_dict action :
  (unrecorded abac_dict action →
     get_deny_reason abac_dict action = Ret (VList [])) ∧
  (∀ old, get_deny_reason abac_dict action = Ret (VList old) →
     (∀ m, ∃ d',
        set_deny_reason abac_dict action m = (Ret VNone, d') ∧
        get_deny_reason d' action = Ret (VList (old ++ [m])) ∧
        (∀ other, other ≠ action →
           get_deny_reason d' other = get_deny_reason abac_dict other) ∧
        (∀ k, k ≠ "_reasons" → d' !! k = abac_dict !! k)) ∧
     (∀ messages,
        get_deny_reason (record_all abac_dict action messages) action =
        Ret (VList (old ++ messages)))).
Proof.
  split; [apply get_deny_reason_unrecorded|].
  intros old Hold. split.
  - intros m. by apply set_deny_reason_appends.
  - intros messages. by apply record_all_reads.
Qed.



(** Equality form, with the default [value_expr = True]: the attribute
    [staff] is [True] for bob, and [1 == True] holds as well. *)
Example is__staff_by_equality :
  (is_ Fixtures.principals "user" "staff" (Plain (VBool true)) VNone
       Fixtures.bob).1 = Ret VNone ∧
  (is_ Fixtures.principals "user" "staff" (Plain (VInt 1)) VNone
       Fixtures.bob).1 = Ret VNone ∧
  (is_ Fixtures.principals "user" "age" (Plain (VInt 18)) VNone
       Fixtures.bob).1 = Raise (PermissionDenied (VList [])).
Proof. repeat split; vm_compute; reflexivity. Qed.

Lemma deny_reason_round_trip_witness :
  get_deny_reason ∅ "delete" = Ret (VList []) ∧
  get_deny_reason (record_all ∅ "delete" [VStr "not owner"]) "delete" =
    Ret (VList [VStr "not owner"]) ∧
  get_deny_reason (record_all ∅ "delete" [VStr "not owner"]) "update" =
    Ret (VList []).
Proof.
  split; [|split].
  - apply (proj1 (deny_reason_round_trip ∅ "delete")).
    left. apply lookup_empty.
  - assert (Hnone : get_deny_reason (∅ : gmap string pyval) "delete" =
                    Ret (VList [])) by (vm_compute; reflexivity).
    exact (proj2 (proj2 (deny_reason_round_trip ∅ "delete") [] Hnone)
                 [VStr "not owner"]).
  - vm_compute; reflexivity.
Defined.

End PermissionsSpec.

(** ** Properties of roles.py *)

Module RolesSpec.
Import Roles.

Lemma rank_taken c done v :
  existsb (λ e, v =? value e) (map (member_of c) done) = true →
  ∃ pre old mid,
    done = pre ++ (old, v) :: mid ∧
    List.find (λ e, value e =? v) (map (member_of c) done) =
      Some (member_of c (old, v)).
Proof.
  induction done as [|[n u] done IH]; simpl; [done|].
  destruct (v =? u) eqn:Hvu.
  - intros _. apply Z.eqb_eq in Hvu as ->. exists [], n, done.
    by rewrite Z.eqb_refl.
  - rewrite Z.eqb_sym, Hvu. simpl. intros Hex.
    destruct (IH Hex) as (pre & old & mid & -> & Hfind).
    exists ((n, u) :: pre), old, mid. done.
Qed.

Lemma rank_free c done v :
  existsb (λ e, v =? value e) (map (member_of c) done) = false →
  v ∉ done.*2.
Proof.
  induction done as [|[n u] done IH]; simpl.
  - intros _. apply not_elem_of_nil.
  - destruct (v =? u) eqn:Hvu; simpl; [done|]. intros Hex.
    apply Z.eqb_neq in Hvu.
    apply not_elem_of_cons. split; [done|]. by apply IH.
Qed.

Lemma rank_names_unique (l : list (string * Z)) a b v :
  NoDup l.*2 → (a, v) ∈ l → (b, v) ∈ l → a = b.
Proof.
  induction l as [|[n u] l IH]; simpl.
  - intros _ Ha. by apply elem_of_nil in Ha.
  - intros [Hu Hnd]%NoDup_cons Ha Hb.
    apply elem_of_cons in Ha as [Ha|Ha];
      apply elem_of_cons in Hb as [Hb|Hb]; simplify_eq.
    + done.
    + exfalso. apply Hu. apply (list_elem_of_fmap_2 snd _ _ Hb).
    + exfalso. apply Hu. apply (list_elem_of_fmap_2 snd _ _ Ha).
    + by apply IH.
Qed.

Lemma init_accepts c done n v :
  v ∉ done.*2 →
  Role.__init__ (map (member_of c) done) {| cls := c; name := n; value := v |}
  = Ret ().
Proof.
  intros Hv. unfold Role.__init__; simpl.
  destruct (existsb _ _) eqn:Hex; [|done].
  apply rank_taken in Hex as (pre & old & mid & -> & _).
  exfalso. apply Hv. rewrite fmap_app, fmap_cons. simpl.
  apply elem_of_app. right. apply elem_of_cons. by left.
Qed.

Lemma init_rejects c done new old v :
  NoDup done.*2 → (old, v) ∈ done →
  Role.__init__ (map (member_of c) done)
                {| cls := c; name := new; value := v |}
  = Raise (ValueError (alias_message new old)).
Proof.
  intros Hnd Hold. unfold Role.__init__, by_value; simpl.
  destruct (existsb _ _) eqn:Hex.
  - apply rank_taken in Hex as (pre & old' & mid & Hdone & ->). simpl.
    assert (old' = old) as ->; [|done].
    apply (rank_names_unique done _ _ v Hnd); [|done].
    rewrite Hdone. apply elem_of_app. right. apply elem_of_cons. by left.
  - apply rank_free in Hex. exfalso. apply Hex.
    apply (list_elem_of_fmap_2 snd _ _ Hold).
Qed.

Lemma create_members_distinct c xs : ∀ ys done,
  NoDup (done ++ xs).*2 →
  create_members c (xs ++ ys) (map (member_of c) done) =
  create_members c ys (map (member_of c) (done ++ xs)).
Proof.
  induction xs as [|[n v] xs IH]; intros ys done Hnd; simpl.
  - by rewrite app_nil_r.
  - assert (Hsplit : done ++ (n, v) :: xs = (done ++ [(n, v)]) ++ xs)
      by (by rewrite <- app_assoc).
    rewrite Hsplit in Hnd |- *.
    rewrite init_accepts.
    + replace (map (member_of c) done ++ [{| cls := c; name := n; value := v |}])
        with (map (member_of c) (done ++ [(n, v)]))
        by (by rewrite map_app).
      by apply IH.
    + rewrite !fmap_app in Hnd.
      apply NoDup_app in Hnd as [Hnd _].
      apply NoDup_app in Hnd as (_ & Hdisj & _).
      intros Hin. apply (Hdisj _ Hin). simpl. apply elem_of_cons. by left.
Qed.

Lemma create_members_alias c done new old v post :
  NoDup done.*2 → (old, v) ∈ done →
  create_members c ((new, v) :: post) (map (member_of c) done) =
  Raise (ValueError (alias_message new old)).
Proof.
  intros Hnd Hold. simpl. by rewrite (init_rejects _ _ _ old).
Qed.

(** A body in which some rank occurs twice is rejected at the first line
    that repeats a rank. *)
Lemma create_members_repeated c body : ∀ done,
  NoDup done.*2 → ¬ NoDup (done ++ body).*2 →
  ∃ pre old v mid new post,
    done ++ body = pre ++ (old, v) :: mid ++ (new, v) :: post ∧
    create_members c body (map (member_of c) done) =
    Raise (ValueError (alias_message new old)).
Proof.
  induction body as [|[n v] body IH]; intros done Hnd Hdup.
  - exfalso. apply Hdup. by rewrite app_nil_r.
  - destruct (decide (v ∈ done.*2)) as [Hin|Hout].
    + apply list_elem_of_fmap in Hin as ([old v'] & Hv & Hin).
      simpl in Hv. subst v'.
      destruct (list_elem_of_split _ _ Hin) as (pre & mid & Hdone).
      exists pre, old, v, mid, n, body. split.
      * rewrite Hdone, <- app_assoc. reflexivity.
      * by apply create_members_alias.
    + assert (Hnd' : NoDup (done ++ [(n, v)]).*2).
      { rewrite fmap_app. apply NoDup_app. split; [done|]. split.
        - intros x Hx Hx'. simpl in Hx'.
          apply list_elem_of_singleton in Hx'. by subst.
        - simpl. apply NoDup_singleton. }
      destruct (IH (done ++ [(n, v)]) Hnd') as
        (pre & old & u & mid & new & post & Hsplit & Hraise).
      { by rewrite <- app_assoc. }
      exists pre, old, u, mid, new, post. split.
      * rewrite <- Hsplit, <- app_assoc. reflexivity.
      * simpl. rewrite (init_accepts _ _ _ _ Hout).
        replace (map (member_of c) done ++
                 [{| cls := c; name := n; value := v |}])
          with (map (member_of c) (done ++ [(n, v)]))
          by (by rewrite map_app).
        exact Hraise.
Qed.

(** C8.  A class body whose ranks are all distinct defines its members
    without error.  A body in which a rank is repeated raises
    [ValueError] at definition; when [new = v] is the first line that
    repeats a rank, and [old = v] the earlier line with that rank, the
    message is ["aliases not allowed in Role:  'new' --> 'old'"], naming
    both members. *)
Theorem duplicate_rank_is_rejected c body :
  (NoDup body.*2 → define c body = Ret (map (member_of c) body)) ∧
  (∀ pre old v mid new post,
     body = pre ++ (old, v) :: mid ++ (new, v) :: post →
     NoDup (pre ++ (old, v) :: mid).*2 →
     define c body = Raise (ValueError (alias_message new old))) ∧
  (¬ NoDup body.*2 →
     ∃ pre old v mid new post,
       body = pre ++ (old, v) :: mid ++ (new, v) :: post ∧
       define c body = Raise (ValueError (alias_message new old))).
Proof.
  unfold define. split; [|split].
  - intros Hnd.
    pose proof (create_members_distinct c body [] [] Hnd) as Hrun.
    rewrite app_nil_r in Hrun. exact Hrun.
  - intros pre old v mid new post -> Hnd.
    replace (pre ++ (old, v) :: mid ++ (new, v) :: post)
      with ((pre ++ (old, v) :: mid) ++ (new, v) :: post)
      by (by rewrite <- app_assoc).
    change (@nil member) with (map (member_of c) []).
    rewrite (create_members_distinct c _ _ [] Hnd). simpl app.
    apply create_members_alias; [done|].
    apply elem_of_app. right. apply elem_of_cons. by left.
  - intros Hdup.
    apply (create_members_repeated c body [] (NoDup_nil_2)). exact Hdup.
Qed.

Lemma duplicate_rank_is_rejected_witness :
  define "MyRoles" [("ROOT", 1); ("ADMIN", 5); ("USER", 10)] =
    Ret [Fixtures.ROOT; Fixtures.ADMIN; Fixtures.USER] ∧
  define "Broken" [("X", 1); ("Y", 1)] =
    Raise (ValueError "aliases not allowed in Role:  'Y' --> 'X'").
Proof.
  split.
  - apply (proj1 (duplicate_rank_is_rejected "MyRoles"
                    [("ROOT", 1); ("ADMIN", 5); ("USER", 10)])).
    apply (bool_decide_unpack _). vm_compute. exact I.
  - apply (proj1 (proj2 (duplicate_rank_is_rejected "Broken"
                           [("X", 1); ("Y", 1)])) [] "X" 1 [] "Y" []).
    + reflexivity.
    + apply NoDup_singleton.
Defined.

(** C9, as amended.  Within one Role set the four predicates compare the
    ranks and do not raise.  Between members of two different Role sets
    each of them defers to the ordering methods of the base enumeration
    class, which raise [TypeError]. *)
Theorem ordering_within_one_set (a b : member) :
  (cls a = cls b →
     Role.__lt__ a b = Ret (value a <? value b) ∧
     Role.__le__ a b = Ret (value a <=? value b) ∧
     Role.__gt__ a b = Ret (value a >? value b) ∧
     Role.__ge__ a b = Ret (value a >=? value b)) ∧
  (cls a ≠ cls b →
     Role.__lt__ a b = Raise TypeError ∧
     Role.__le__ a b = Raise TypeError ∧
     Role.__gt__ a b = Raise TypeError ∧
     Role.__ge__ a b = Raise TypeError).
Proof.
  unfold Role.__lt__, Role.__le__, Role.__gt__, Role.__ge__, Enum_unorderable.
  split; intros Hcls.
  - apply String.eqb_eq in Hcls. by rewrite Hcls.
  - apply String.eqb_neq in Hcls. by rewrite Hcls.
Qed.

Lemma ordering_within_one_set_witness :
  (Role.__lt__ Fixtures.ROOT Fixtures.ADMIN = Ret true ∧
   Role.__le__ Fixtures.ROOT Fixtures.ADMIN = Ret true ∧
   Role.__gt__ Fixtures.ROOT Fixtures.ADMIN = Ret false ∧
   Role.__ge__ Fixtures.ROOT Fixtures.ADMIN = Ret false) ∧
  (Role.__lt__ Fixtures.ADMIN Fixtures.GUEST = Raise TypeError ∧
   Role.__le__ Fixtures.ADMIN Fixtures.GUEST = Raise TypeError ∧
   Role.__gt__ Fixtures.ADMIN Fixtures.GUEST = Raise TypeError ∧
   Role.__ge__ Fixtures.ADMIN Fixtures.GUEST = Raise TypeError).
Proof.
  split.
  - apply (proj1 (ordering_within_one_set Fixtures.ROOT Fixtures.ADMIN)).
    reflexivity.
  - apply (proj2 (ordering_within_one_set Fixtures.ADMIN Fixtures.GUEST)).
    discriminate.
Defined.

(** C9, as stated, fails: [ADMIN] and [GUEST] belong to two different
    Role sets, and each of [ADMIN < GUEST], [ADMIN <= GUEST],
    [ADMIN > GUEST], [ADMIN >= GUEST] raises [TypeError]. *)
Lemma ordering_across_sets_raises :
  cls Fixtures.ADMIN ≠ cls Fixtures.GUEST ∧
  Role.__lt__ Fixtures.ADMIN Fixtures.GUEST = Raise TypeError ∧
  Role.__le__ Fixtures.ADMIN Fixtures.GUEST = Raise TypeError ∧
  Role.__gt__ Fixtures.ADMIN Fixtures.GUEST = Raise TypeError ∧
  Role.__ge__ Fixtures.ADMIN Fixtures.GUEST = Raise TypeError.
Proof. split; [discriminate|]. repeat split. Qed.

(** The ordering of the specification's example. *)
Example role_ordering_example :
  Role.__lt__ Fixtures.ROOT Fixtures.ADMIN = Ret true ∧
  Role.__lt__ Fixtures.ADMIN Fixtures.USER = Ret true ∧
  Role.__ge__ Fixtures.USER Fixtures.ADMIN = Ret true.
Proof. repeat split. Qed.

End RolesSpec.

(** ** Further properties of permissions.py *)

Module PermissionsMore.
Import Permissions Runs PermissionsSpec.

(** *** Failure propagation *)

Lemma all_genexp_app_raise {A} (g : A → M pyval) pre f rest w w1 x w2 :
  all_genexp g pre w = (Ret true, w1) →
  g f w1 = (Raise x, w2) →
  all_genexp g (pre ++ f :: rest) w = (Raise x, w2).
Proof.
  revert w. induction pre as [|a pre IH]; intros w Hpre Hf; simpl in *.
  - run_monad. injection Hpre as <-. by rewrite Hf.
  - run_monad. destruct (g a w) as [[u|e] wa]; [|done].
    destruct (truthy u); [|done]. by apply IH.
Qed.

Lemma filter_genexp_app_raise {A} p (g : A → M pyval) pre f rest w vs w1 x w2 :
  filter_genexp p g pre w = (Ret vs, w1) →
  g f w1 = (Raise x, w2) →
  filter_genexp p g (pre ++ f :: rest) w = (Raise x, w2).
Proof.
  revert w vs. induction pre as [|a pre IH]; intros w vs Hpre Hf; simpl in *.
  - run_monad. injection Hpre as _ <-. by rewrite Hf.
  - run_monad. destruct (g a w) as [[u|e] wa]; [|done].
    destruct (filter_genexp p g pre wa) as [[us|e] wb] eqn:Hrest; [|done].
    injection Hpre as _ ->. by rewrite (IH _ _ Hrest Hf).
Qed.

(** An exception raised by an assertion leaves [can] as it is: the
    assertions before it have been called, in order, and none after it. *)
Theorem can_propagates_exception principals actor_type action res context w
    pre n body rest d1 x d2 :
  registered principals actor_type action = pre ++ AssertFn n body :: rest →
  passes (self (actor_object w)) res action context pre (entry w) d1 →
  body (self (actor_object w)) res action context d1 = (Raise x, d2) →
  can principals actor_type action res context w =
  (Raise x, after w d2 (map (EvAssert ∘ fn_name) pre ++ [EvAssert n])).
Proof.
  intros Hreg Hpre Hbody. rewrite can_run, Hreg, acquire_after. run_monad.
  erewrite all_genexp_app_raise; [reflexivity| |].
  - by apply (all_genexp_passes _ _ _ _ _ _ _ Hpre).
  - rewrite call_assert_after, Hbody. reflexivity.
Qed.

Lemma can_propagates_exception_witness :
  can Fixtures.failing "user" "open" VNone VNone Fixtures.bob =
  (Raise (Failure "explode"),
   after Fixtures.bob ∅ [EvAssert "always"; EvAssert "explode"]).
Proof.
  apply (can_propagates_exception Fixtures.failing "user" "open" VNone VNone
           Fixtures.bob [Fixtures.always] "explode" Fixtures.explode_body
           [Fixtures.never] ∅).
  - vm_compute; reflexivity.
  - eapply passes_cons; [reflexivity | reflexivity | apply passes_nil].
  - reflexivity.
Defined.

(** When every registered assertion returns a truthy value, all of them
    are called, in registration order, each on the dictionary its
    predecessor left, and [can] returns [None]. *)
Theorem can_runs_whole_chain principals actor_type action res context w d' :
  passes (self (actor_object w)) res action context
         (registered principals actor_type action) (entry w) d' →
  can principals actor_type action res context w =
  (Ret VNone,
   after w d' (map (EvAssert ∘ fn_name)
                   (registered principals actor_type action))).
Proof.
  intros Hpass. rewrite can_run, acquire_after. run_monad.
  by rewrite (all_genexp_passes _ _ _ _ _ _ _ Hpass).
Qed.

Lemma can_runs_whole_chain_witness :
  can Fixtures.failing "user" "pass" VNone VNone Fixtures.carol =
  (Ret VNone,
   after Fixtures.carol (entry Fixtures.carol)
         [EvAssert "always"; EvAssert "adult"]).
Proof.
  refine (can_runs_whole_chain Fixtures.failing "user" "pass" VNone VNone
            Fixtures.carol (entry Fixtures.carol) _).
  change (registered Fixtures.failing "user" "pass")
    with [Fixtures.always; Fixtures.adult].
  eapply passes_cons; [reflexivity | reflexivity |].
  eapply passes_cons; [reflexivity | vm_compute; reflexivity |].
  apply passes_nil.
Defined.

(** An exception raised by an init function leaves [_load_abac_dict] and
    [get] as it is.  The init functions after it are not called and no
    marker is written: the dictionary is the one the failing function
    left, with the writes of its predecessors. *)
Theorem load_propagates_exception principals actor_type attr context w
    pre n body rest vs d1 x d2 :
  entry w !! actor_type = None →
  registered principals actor_type "_init" = pre ++ InitFn n body :: rest →
  inits_run (self (actor_object w)) context pre (entry w) vs d1 →
  body d1 (self (actor_object w)) context = (Raise x, d2) →
  _load_abac_dict principals actor_type context w =
    (Raise x, after w d2 (map (EvInit ∘ fn_name) pre ++ [EvInit n])) ∧
  get principals actor_type attr context w =
    (Raise x, after w d2 (map (EvInit ∘ fn_name) pre ++ [EvInit n])).
Proof.
  intros Hk Hreg Hpre Hbody.
  assert (Hload : _load_abac_dict principals actor_type context w =
            (Raise x, after w d2 (map (EvInit ∘ fn_name) pre ++ [EvInit n]))).
  { unfold _load_abac_dict. run_monad.
    rewrite _get_abac_dict_run, (marker_test_absent _ _ Hk), acquire_after.
    rewrite Hreg.
    erewrite filter_genexp_app_raise; [reflexivity| |].
    - by apply (filter_genexp_inits _ _ _ _ _ _ Hpre).
    - rewrite call_init_after, Hbody. reflexivity. }
  split; [exact Hload|]. unfold get. run_monad. by rewrite Hload.
Qed.

Lemma load_propagates_exception_witness :
  _load_abac_dict Fixtures.failing "svc" VNone Fixtures.bob =
    (Raise (Failure "backend down"),
     after Fixtures.bob {[ "age" := VInt 17; "partial" := VInt 1 ]}
           [EvInit "load_age"; EvInit "load_fail"]) ∧
  get Fixtures.failing "svc" "age" VNone Fixtures.bob =
    (Raise (Failure "backend down"),
     after Fixtures.bob {[ "age" := VInt 17; "partial" := VInt 1 ]}
           [EvInit "load_age"; EvInit "load_fail"]).
Proof.
  refine (load_propagates_exception Fixtures.failing "svc" "age" VNone
            Fixtures.bob [Fixtures.load_age] "load_fail"
            Fixtures.load_fail_body [Fixtures.load_staff] [VNone]
            {[ "age" := VInt 17 ]} (Failure "backend down")
            {[ "age" := VInt 17; "partial" := VInt 1 ]} _ _ _ _).
  - vm_compute; reflexivity.
  - vm_compute; reflexivity.
  - eapply inits_run_cons; [reflexivity | apply inits_run_nil].
  - vm_compute; reflexivity.
Defined.

(** *** The marker and the attributes *)

Lemma py_all_false_iff vs :
  py_all (List.filter is_not_None vs) = false ↔
  ∃ r, r ∈ vs ∧ r ≠ VNone ∧ truthy r = false.
Proof.
  induction vs as [|v vs IH]; simpl.
  - split; [done|]. intros (r & Hr & _). by apply elem_of_nil in Hr.
  - destruct (is_not_None v) eqn:Hv; simpl.
    + rewrite andb_false_iff, IH. split.
      * intros [Ht | (r & Hr & Hne & Ht)].
        -- exists v. split; [apply elem_of_cons; by left|].
           split; [|done]. intros ->. done.
        -- exists r. split; [apply elem_of_cons; by right|]. done.
      * intros (r & Hr & Hne & Ht).
        apply elem_of_cons in Hr as [-> | Hr]; [by left|].
        right. by exists r.
    + rewrite IH. destruct v; try done. split.
      * intros (r & Hr & Hne & Ht). exists r.
        split; [apply elem_of_cons; by right|]. done.
      * intros (r & Hr & Hne & Ht).
        apply elem_of_cons in Hr as [-> | Hr]; [done|]. by exists r.
Qed.

(** The marker written by initialisation is [False] exactly when some
    init function returned a value that is falsy without being [None];
    that is what reading the attribute [actor_type] then returns. *)
Theorem marker_records_falsy_init principals actor_type context w vs d' :
  entry w !! actor_type = None →
  inits_run (self (actor_object w)) context
            (registered principals actor_type "_init") (entry w) vs d' →
  ∃ b, (get principals actor_type actor_type context w).1 = Ret (VBool b) ∧
       (b = false ↔ ∃ r, r ∈ vs ∧ r ≠ VNone ∧ truthy r = false).
Proof.
  intros Hk Hrun. exists (py_all (List.filter is_not_None vs)).
  rewrite (get_absent _ _ _ _ _ _ _ Hk Hrun). simpl. split.
  - unfold dict_get. by rewrite lookup_insert_eq.
  - apply py_all_false_iff.
Qed.

Lemma marker_records_falsy_init_witness :
  ∃ b, (get Fixtures.principals "user" "user" VNone Fixtures.bob).1 =
       Ret (VBool b) ∧
       (b = false ↔
        ∃ r, r ∈ [VNone; VBool false] ∧ r ≠ VNone ∧ truthy r = false).
Proof.
  refine (marker_records_falsy_init Fixtures.principals "user" VNone
            Fixtures.bob [VNone; VBool false]
            {[ "age" := VInt 17; "staff" := VBool true ]} _ _).
  - vm_compute; reflexivity.
  - change (registered Fixtures.principals "user" "_init")
      with [Fixtures.load_age; Fixtures.load_staff].
    eapply inits_run_cons; [reflexivity|].
    eapply inits_run_cons; [vm_compute; reflexivity|].
    apply inits_run_nil.
Defined.

(** On an initialised actor [get] returns [None] for an attribute that
    was never written and for one that was written as [None], and in no
    other case. *)
Theorem get_None_is_ambiguous principals actor_type attr context w :
  is_Some (entry w !! actor_type) →
  (get principals actor_type attr context w).1 = Ret VNone ↔
  entry w !! attr = None ∨ entry w !! attr = Some VNone.
Proof.
  intros Hk. rewrite (get_present _ _ _ _ _ Hk). simpl. unfold dict_get.
  destruct (entry w !! attr) as [v|]; simpl.
  - split.
    + intros [= ->]. by right.
    + intros [?|[= ->]]; done.
  - split; [by left|done].
Qed.

Lemma get_None_is_ambiguous_witness :
  (get Fixtures.principals "user" "nickname" VNone Fixtures.carol).1 =
    Ret VNone ↔
  entry Fixtures.carol !! "nickname" = None ∨
  entry Fixtures.carol !! "nickname" = Some VNone.
Proof.
  apply (get_None_is_ambiguous Fixtures.principals "user" "nickname" VNone
           Fixtures.carol).
  exists (VBool true). vm_compute; reflexivity.
Defined.



(** *** [is_], case by case *)

Lemma is__run principals actor_type attr e context w value w1 :
  get principals actor_type attr context w = (Ret value, w1) →
  is_ principals actor_type attr e context w =
  match (if callable e then call_expr e value
         else Ret (VBool (eq_expr value e))) with
  | Ret m =>
      if truthy m then (Ret VNone, w1)
      else match get_deny_reason (entry w1) attr with
           | Ret r => (Raise (PermissionDenied r), w1)
           | Raise x => (Raise x, w1)
           end
  | Raise x => (Raise x, w1)
  end.
Proof.
  intros Hget. unfold is_. run_monad. rewrite Hget.
  apply get_leaves_marker in Hget as [_ Hk].
  pose proof (acquire_present _ _ (present_entry _ _ Hk)) as Hw.
  destruct e as [y|f]; simpl.
  - destruct (py_eq value y); simpl; [done|].
    rewrite _get_abac_dict_run, Hw. by destruct (get_deny_reason _ _).
  - destruct (f value) as [m|x]; [|done].
    destruct (truthy m); simpl; [done|].
    rewrite _get_abac_dict_run, Hw. by destruct (get_deny_reason _ _).
Qed.

(** An exception raised by a callable [value_expr] leaves [is_] as it
    is, in place of [PermissionDenied]; the actor is as [get] left it. *)
Theorem is__propagates_callable_exception principals actor_type attr f
    context w value w1 x :
  get principals actor_type attr context w = (Ret value, w1) →
  f value = Raise x →
  is_ principals actor_type attr (Callable f) context w = (Raise x, w1).
Proof.
  intros Hget Hf. rewrite (is__run _ _ _ _ _ _ _ _ Hget). simpl.
  by rewrite Hf.
Qed.

Lemma is__propagates_callable_exception_witness :
  is_ Fixtures.principals "user" "age" Fixtures.crash VNone Fixtures.carol =
  (Raise (Failure "crash"), Fixtures.carol).
Proof.
  apply (is__propagates_callable_exception Fixtures.principals "user" "age"
           _ VNone Fixtures.carol (VInt 18)).
  - vm_compute; reflexivity.
  - reflexivity.
Defined.

(** A failing check on a dictionary whose key ['_reasons'] holds
    something that is not a dictionary raises [AttributeError], not
    [PermissionDenied]. *)
Theorem is__needs_reason_dictionary principals actor_type attr e context w
    value w1 v :
  get principals actor_type attr context w = (Ret value, w1) →
  matches value e = Ret false →
  entry w1 !! "_reasons" = Some v →
  is_dict v = false →
  is_ principals actor_type attr e context w = (Raise AttributeError, w1).
Proof.
  intros Hget Hok Hv Hnd. rewrite (is__run _ _ _ _ _ _ _ _ Hget).
  assert (Hdeny : get_deny_reason (entry w1) attr = Raise AttributeError).
  { unfold get_deny_reason, dict_get. rewrite Hv. simpl. by destruct v. }
  destruct e as [y|f]; simpl in *.
  - injection Hok as ->. simpl. by rewrite Hdeny.
  - destruct (f value) as [r|?]; [|done]. injection Hok as ->.
    by rewrite Hdeny.
Qed.

Lemma is__needs_reason_dictionary_witness :
  is_ Fixtures.principals "user" "age" Fixtures.at_least_18 VNone
      Fixtures.erin = (Raise AttributeError, Fixtures.erin).
Proof.
  apply (is__needs_reason_dictionary Fixtures.principals "user" "age"
           Fixtures.at_least_18 VNone Fixtures.erin (VInt 17) Fixtures.erin
           (VStr "n/a")).
  - vm_compute; reflexivity.
  - reflexivity.
  - vm_compute; reflexivity.
  - reflexivity.
Defined.

(** Unlike [can], [is_] initialises: on an actor without marker the init
    functions run first, the check is made on the attribute they wrote,
    and a denial carries the reasons they recorded. *)
Theorem is__initializes_first principals actor_type attr e context w vs d'
    ok reasons :
  entry w !! actor_type = None →
  inits_run (self (actor_object w)) context
            (registered principals actor_type "_init") (entry w) vs d' →
  let loaded :=
    <[actor_type := VBool (py_all (List.filter is_not_None vs))]> d' in
  matches (dict_get loaded attr VNone) e = Ret ok →
  get_deny_reason loaded attr = Ret reasons →
  is_ principals actor_type attr e context w =
  (if ok then Ret VNone else Raise (PermissionDenied reasons),
   after w loaded
         (map (EvInit ∘ fn_name) (registered principals actor_type "_init"))).
Proof.
  intros Hk Hrun loaded Hok Hreasons.
  rewrite (is__run _ _ _ _ _ _ _ _ (get_absent _ _ attr _ _ _ _ Hk Hrun)).
  fold loaded. rewrite entry_after, Hreasons.
  destruct e as [y|f]; simpl in *.
  - injection Hok as <-. by destruct (py_eq _ y).
  - destruct (f _) as [r|?]; [|done]. injection Hok as <-.
    by destruct (truthy r).
Qed.

Lemma is__initializes_first_witness :
  (is_ Fixtures.voters "voter" "age" Fixtures.at_least_18 VNone
       Fixtures.bob).1 =
  Raise (PermissionDenied (VList [VStr "minors may not vote"])).
Proof.
  refine (f_equal fst
    (is__initializes_first Fixtures.voters "voter" "age"
       Fixtures.at_least_18 VNone Fixtures.bob [VNone; VNone]
       (set_deny_reason {[ "age" := VInt 17 ]} "age"
                        (VStr "minors may not vote")).2
       false (VList [VStr "minors may not vote"]) _ _ _ _)).
  - vm_compute; reflexivity.
  - change (registered Fixtures.voters "voter" "_init")
      with [Fixtures.load_age; InitFn "explain" Fixtures.explain_body].
    eapply inits_run_cons; [reflexivity|].
    eapply inits_run_cons; [vm_compute; reflexivity|].
    apply inits_run_nil.
  - vm_compute; reflexivity.
  - vm_compute; reflexivity.
Defined.

(** *** Deny reasons: failures and defaults *)

(** When the key ['_reasons'] holds something that is not a dictionary,
    [get_deny_reason] raises [AttributeError].  Whenever [get_deny_reason]
    does not return a list for an action, [set_deny_reason] for that
    action raises [AttributeError] and leaves the dictionary as it was. *)
Theorem deny_reason_fails_cleanly abac_dict action m :
  (∀ v, abac_dict !! "_reasons" = Some v → is_dict v = false →
        get_deny_reason abac_dict action = Raise AttributeError) ∧
  ((∀ old, get_deny_reason abac_dict action ≠ Ret (VList old)) →
   set_deny_reason abac_dict action m = (Raise AttributeError, abac_dict)).
Proof.
  unfold get_deny_reason, set_deny_reason, dict_setdefault, dict_get. split.
  - intros v -> Hv. simpl. by destruct v.
  - destruct (abac_dict !! "_reasons") as [v|] eqn:Hr; simpl.
    + destruct v as [| | | | |by_action]; try done.
      destruct (by_action !! action) as [u|] eqn:Ha; simpl.
      * intros Hbad. rewrite (insert_id _ _ _ Hr).
        destruct u; try done. exfalso. by eapply Hbad.
      * intros Hbad. exfalso. by eapply Hbad.
    + rewrite lookup_empty. simpl. intros Hbad. exfalso. by eapply Hbad.
Qed.

Lemma deny_reason_fails_cleanly_witness :
  get_deny_reason (entry Fixtures.erin) "age" = Raise AttributeError ∧
  set_deny_reason (entry Fixtures.erin) "age" (VStr "too young") =
    (Raise AttributeError, entry Fixtures.erin).
Proof.
  split.
  - apply (proj1 (deny_reason_fails_cleanly (entry Fixtures.erin) "age"
                    VNone) (VStr "n/a")); vm_compute; reflexivity.
  - apply (proj2 (deny_reason_fails_cleanly (entry Fixtures.erin) "age"
                    (VStr "too young"))).
    intros old. vm_compute. discriminate.
Defined.

Lemma as_reason_list_comprehension v :
  (if negb (isinstance_list v) then VList [v] else v) = as_reason_list v.
Proof. by destruct v. Qed.

Lemma set_default_reasons_run abac_dict reasons_dict stored :
  abac_dict !! "_reasons" = None ∧ stored = ∅ ∨
  abac_dict !! "_reasons" = Some (VDict stored) →
  set_default_reasons abac_dict reasons_dict =
  (Ret VNone,
   <["_reasons" := VDict ((as_reason_list <$> reasons_dict) ∪ stored)]>
     abac_dict).
Proof.
  unfold set_default_reasons, dict_setdefault.
  rewrite (map_fmap_ext _ as_reason_list)
    by (intros; apply as_reason_list_comprehension).
  intros [[-> ->] | ->].
  - rewrite insert_insert_eq. by rewrite map_union_idemp, (right_id_L ∅ (∪)).
  - done.
Qed.

Lemma set_default_reasons_returns abac_dict reasons_dict d' :
  set_default_reasons abac_dict reasons_dict = (Ret VNone, d') →
  ∃ stored,
    (abac_dict !! "_reasons" = None ∧ stored = ∅ ∨
     abac_dict !! "_reasons" = Some (VDict stored)) ∧
    d' = <["_reasons" := VDict ((as_reason_list <$> reasons_dict) ∪ stored)]>
           abac_dict.
Proof.
  intros Hrun.
  assert (∃ stored,
            abac_dict !! "_reasons" = None ∧ stored = ∅ ∨
            abac_dict !! "_reasons" = Some (VDict stored)) as [stored Hs].
  { destruct (abac_dict !! "_reasons") as [v|] eqn:Hv.
    - unfold set_default_reasons, dict_setdefault in Hrun. rewrite Hv in Hrun.
      destruct v; try done. eexists. by right.
    - exists ∅. by left. }
  exists stored. split; [done|].
  rewrite (set_default_reasons_run _ _ _ Hs) in Hrun. by injection Hrun.
Qed.

Lemma seeded_reads abac_dict reasons_dict stored k v :
  reasons_dict !! k = Some v →
  get_deny_reason
    (<["_reasons" := VDict ((as_reason_list <$> reasons_dict) ∪ stored)]>
       abac_dict) k = Ret (as_reason_list v).
Proof.
  intros Hk. unfold get_deny_reason, dict_get.
  rewrite lookup_insert_eq. simpl.
  erewrite lookup_union_Some_l; [reflexivity|].
  by rewrite lookup_fmap, Hk.
Qed.

(** Where the key ['_reasons'] is unset or holds a dictionary,
    [set_default_reasons] returns normally; afterwards the reasons of
    every action of the mapping are its value, wrapped in a list if it
    was not one, whatever was recorded before, the reasons of every other
    action are as before, and so are the other keys of the dictionary. *)
Theorem set_default_reasons_seeds abac_dict reasons_dict :
  (abac_dict !! "_reasons" = None ∨
   ∃ stored, abac_dict !! "_reasons" = Some (VDict stored)) →
  ∃ d', set_default_reasons abac_dict reasons_dict = (Ret VNone, d') ∧
        (∀ k v, reasons_dict !! k = Some v →
                get_deny_reason d' k = Ret (as_reason_list v)) ∧
        (∀ k, reasons_dict !! k = None →
              get_deny_reason d' k = get_deny_reason abac_dict k) ∧
        (∀ k, k ≠ "_reasons" → d' !! k = abac_dict !! k).
Proof.
  intros Hwf.
  assert (∃ stored,
            (abac_dict !! "_reasons" = None ∧ stored = ∅ ∨
             abac_dict !! "_reasons" = Some (VDict stored)) ∧
            get_deny_reason abac_dict =
              λ k, Ret (dict_get stored k (VList [])))
    as (stored & Hstored & Hget).
  { destruct Hwf as [Hnone | [stored Hsome]].
    - exists ∅. split; [by left|].
      unfold get_deny_reason, dict_get. by rewrite Hnone.
    - exists stored. split; [by right|].
      unfold get_deny_reason, dict_get. by rewrite Hsome. }
  eexists. split; [by apply set_default_reasons_run|].
  split; [|split].
  - intros k v Hk. by apply seeded_reads.
  - intros k Hk. rewrite Hget. unfold get_deny_reason, dict_get.
    rewrite lookup_insert_eq. simpl.
    rewrite lookup_union_r; [done|]. by rewrite lookup_fmap, Hk.
  - intros k Hk. by rewrite lookup_insert_ne.
Qed.

Lemma set_default_reasons_seeds_witness :
  ∃ d', set_default_reasons (entry Fixtures.carol)
          {[ "age" := VStr "too young";
             "vote" := VList [VStr "a"; VStr "b"] ]} = (Ret VNone, d') ∧
        (∀ k v, ({[ "age" := VStr "too young";
                    "vote" := VList [VStr "a"; VStr "b"] ]}
                   : gmap string pyval) !! k = Some v →
                get_deny_reason d' k = Ret (as_reason_list v)) ∧
        (∀ k, ({[ "age" := VStr "too young";
                  "vote" := VList [VStr "a"; VStr "b"] ]}
                 : gmap string pyval) !! k = None →
              get_deny_reason d' k = get_deny_reason (entry Fixtures.carol) k) ∧
        (∀ k, k ≠ "_reasons" → d' !! k = entry Fixtures.carol !! k).
Proof.
  apply (set_default_reasons_seeds (entry Fixtures.carol)).
  left. vm_compute; reflexivity.
Defined.



(** Seeding the same defaults twice is the same as seeding them once. *)
Theorem set_default_reasons_idempotent abac_dict reasons_dict d' :
  set_default_reasons abac_dict reasons_dict = (Ret VNone, d') →
  set_default_reasons d' reasons_dict = (Ret VNone, d').
Proof.
  intros Hfirst.
  apply set_default_reasons_returns in Hfirst as (stored & _ & ->).
  erewrite set_default_reasons_run;
    [|right; apply lookup_insert_eq].
  by rewrite insert_insert_eq, (assoc_L (∪)), map_union_idemp.
Qed.

Lemma set_default_reasons_idempotent_witness :
  set_default_reasons
    (set_default_reasons ∅ {[ "age" := VStr "too young" ]}).2
    {[ "age" := VStr "too young" ]} =
  (Ret VNone, (set_default_reasons ∅ {[ "age" := VStr "too young" ]}).2).
Proof.
  apply (set_default_reasons_idempotent ∅). vm_compute; reflexivity.
Defined.

(** A reason recorded after the defaults is appended to the default list
    of its action. *)
Theorem set_deny_reason_after_defaults abac_dict reasons_dict d' k v m :
  set_default_reasons abac_dict reasons_dict = (Ret VNone, d') →
  reasons_dict !! k = Some v →
  ∃ d'', set_deny_reason d' k m = (Ret VNone, d'') ∧
         get_deny_reason d'' k =
         Ret (VList (match v with VList xs => xs | _ => [v] end ++ [m])).
Proof.
  intros Hseed Hk.
  apply set_default_reasons_returns in Hseed as (stored & _ & ->).
  pose proof (seeded_reads abac_dict reasons_dict stored k v Hk) as Hget.
  assert (Hlist : as_reason_list v =
                  VList (match v with VList xs => xs | _ => [v] end))
    by (by destruct v).
  rewrite Hlist in Hget.
  destruct (set_deny_reason_appends _ _ _ m Hget) as (d'' & Hset & Hread & _).
  by exists d''.
Qed.

Lemma set_deny_reason_after_defaults_witness :
  ∃ d'',
    set_deny_reason
      (set_default_reasons ∅ {[ "age" := VStr "too young" ]}).2 "age"
      (VStr "no id") = (Ret VNone, d'') ∧
    get_deny_reason d'' "age" =
      Ret (VList ([VStr "too young"] ++ [VStr "no id"])).
Proof.
  apply (set_deny_reason_after_defaults ∅ {[ "age" := VStr "too young" ]}
           _ "age" (VStr "too young") (VStr "no id")).
  - vm_compute; reflexivity.
  - vm_compute; reflexivity.
Defined.

End PermissionsMore.

(** ** Further properties of roles.py *)

Module RolesMore.
Import Roles RolesSpec.

Lemma define_returns c body ms :
  define c body = Ret ms →
  NoDup body.*2 ∧ ms = map (member_of c) body.
Proof.
  unfold define. intros Hdef.
  destruct (decide (NoDup body.*2)) as [Hnd|Hdup].
  - split; [done|].
    pose proof (create_members_distinct c body [] [] Hnd) as Hrun.
    rewrite app_nil_r in Hrun. simpl in Hrun.
    rewrite Hrun in Hdef. by injection Hdef.
  - exfalso.
    destruct (create_members_repeated c body [] NoDup_nil_2 Hdup)
      as (? & ? & ? & ? & ? & ? & _ & Hraise).
    simpl in Hraise. by rewrite Hraise in Hdef.
Qed.

Lemma defined_members c body a :
  a ∈ map (member_of c) body → cls a = c ∧ (name a, value a) ∈ body.
Proof.
  intros ([n v] & -> & Hin)%list_elem_of_fmap. by split.
Qed.

(** The members of a Role set that was defined without error are
    totally ordered: two members are the same member, or exactly one of
    [a < b] and [a > b] holds, and neither comparison raises. *)
Theorem defined_set_is_totally_ordered c body ms a b :
  define c body = Ret ms → a ∈ ms → b ∈ ms →
  a = b ∧ Role.__lt__ a b = Ret false ∧ Role.__gt__ a b = Ret false ∨
  a ≠ b ∧ Role.__lt__ a b = Ret true ∧ Role.__gt__ a b = Ret false ∨
  a ≠ b ∧ Role.__lt__ a b = Ret false ∧ Role.__gt__ a b = Ret true.
Proof.
  intros [Hnd ->]%define_returns Ha Hb.
  apply defined_members in Ha as [Hca Ha], Hb as [Hcb Hb].
  unfold Role.__lt__, Role.__gt__.
  assert (Hcls : String.eqb (cls a) (cls b) = true)
    by (apply String.eqb_eq; congruence).
  rewrite Hcls.
  destruct (Z.lt_trichotomy (value a) (value b)) as [Hlt | [Heq | Hgt]].
  - right; left. split; [intros ->; lia|].
    split; f_equal; [by apply Z.ltb_lt|]. rewrite Z.gtb_ltb. by apply Z.ltb_ge; lia.
  - left. split.
    + rewrite Heq in Ha.
      pose proof (rank_names_unique body _ _ _ Hnd Ha Hb) as Hname.
      destruct a, b; simpl in *; congruence.
    + rewrite Heq, Z.gtb_ltb, Z.ltb_irrefl. done.
  - right; right. split; [intros ->; lia|].
    split; f_equal; [by apply Z.ltb_ge; lia|].
    rewrite Z.gtb_ltb. apply Z.ltb_lt. lia.
Qed.

Lemma defined_set_is_totally_ordered_witness :
  Fixtures.ROOT ≠ Fixtures.USER ∧
  Role.__lt__ Fixtures.ROOT Fixtures.USER = Ret true ∧
  Role.__gt__ Fixtures.ROOT Fixtures.USER = Ret false.
Proof.
  destruct (defined_set_is_totally_ordered "MyRoles"
              [("ROOT", 1); ("ADMIN", 5); ("USER", 10)]
              [Fixtures.ROOT; Fixtures.ADMIN; Fixtures.USER]
              Fixtures.ROOT Fixtures.USER)
    as [(Heq & _) | [H | (_ & Hlt & _)]].
  - vm_compute; reflexivity.
  - apply elem_of_cons. by left.
  - apply elem_of_cons. right. apply elem_of_cons. right.
    apply elem_of_cons. by left.
  - discriminate Heq.
  - exact H.
  - discriminate Hlt.
Defined.

(** The four predicates agree with one another, in one Role set and
    across two: [a < b] is [b > a] and [a <= b] is [b >= a], results and
    exceptions alike, and where [a < b] returns, [a >= b] returns its
    negation, as [a <= b] does for [a > b]. *)
Theorem ordering_predicates_agree (a b : member) :
  Role.__lt__ a b = Role.__gt__ b a ∧
  Role.__le__ a b = Role.__ge__ b a ∧
  (∀ r, Role.__lt__ a b = Ret r → Role.__ge__ a b = Ret (negb r)) ∧
  (∀ r, Role.__gt__ a b = Ret r → Role.__le__ a b = Ret (negb r)).
Proof.
  unfold Role.__lt__, Role.__le__, Role.__gt__, Role.__ge__, Enum_unorderable.
  rewrite (String.eqb_sym (cls b) (cls a)).
  destruct (String.eqb (cls a) (cls b)).
  - rewrite Z.gtb_ltb, Z.geb_leb. split; [done|]. split; [done|].
    split; intros r [= <-]; f_equal.
    + rewrite Z.geb_leb. apply Z.leb_antisym.
    + rewrite Z.gtb_ltb. apply Z.leb_antisym.
  - repeat split; intros; done.
Qed.

(** Where [a < b] and [b < c] both hold, so does [a < c]; likewise for
    [<=]. *)
Theorem ordering_is_transitive (a b c : member) :
  (Role.__lt__ a b = Ret true → Role.__lt__ b c = Ret true →
   Role.__lt__ a c = Ret true) ∧
  (Role.__le__ a b = Ret true → Role.__le__ b c = Ret true →
   Role.__le__ a c = Ret true).
Proof.
  unfold Role.__lt__, Role.__le__, Enum_unorderable.
  destruct (String.eqb (cls a) (cls b)) eqn:Hab;
    [|split; intros; done].
  destruct (String.eqb (cls b) (cls c)) eqn:Hbc;
    [|split; intros; done].
  apply String.eqb_eq in Hab, Hbc.
  assert (Hac : String.eqb (cls a) (cls c) = true)
    by (apply String.eqb_eq; congruence).
  rewrite Hac. split; intros [= H1] [= H2]; f_equal.
  - apply Z.ltb_lt. apply Z.ltb_lt in H1, H2. lia.
  - apply Z.leb_le. apply Z.leb_le in H1, H2. lia.
Qed.

Lemma ordering_is_transitive_witness :
  Role.__lt__ Fixtures.ROOT Fixtures.USER = Ret true.
Proof.
  apply (proj1 (ordering_is_transitive Fixtures.ROOT Fixtures.ADMIN
                  Fixtures.USER)); reflexivity.
Defined.

End RolesMore.
